(** * django_browserid.views: the request handlers, embedded and verified

    A shallow embedding of [django_browserid/views.py]: the redirect-target
    resolver [_get_next], the [JSONView] method-not-allowed envelope and the
    three handlers [Verify], [CsrfToken] and [Logout].

    The handlers are glue code around collaborators that live in the web
    framework: the authentication backend, the session login and logout
    primitives, the URL-safety validator, the template context and the
    logger.  Collaborators that compute something are Section variables;
    collaborators that act on the outside world are recorded in an explicit
    [World] (the session and a trace of the calls made), threaded through a
    small state-and-exception monad. *)

From stdpp Require Import base option list strings gmap.
From Stdlib Require Import ZArith Ascii String.

Local Open Scope string_scope.
Local Open Scope Z_scope.

(** ** Python values *)

(** Exception objects, by what the code can tell apart: the class, as far
    as [except Exception] looks at it, and the truth value, which
    [if error:] looks at.  [except Exception] catches instances of
    [Exception] (which [BrowserIDException] subclasses); the exit signals
    that derive from [BaseException] only pass through it.  An instance
    of [Exception] is true in a condition unless its class defines
    [__bool__] or [__len__] and makes it false: [FalsyException] is such an
    instance, of a subclass of [Exception]. *)
Inductive PyException :=
  | BrowserIDException (exc : string)
  | OtherException (cls msg : string)
  | FalsyException (cls : string)
  | ExitSignal (cls : string).

Definition isinstance_Exception (e : PyException) : bool :=
  match e with
  | BrowserIDException _ | OtherException _ _ | FalsyException _ => true
  | ExitSignal _ => false
  end.

(** The principal returned by the authentication backend. *)
Record User := { email : string; is_active : bool }.

(** Truth value of an object in a condition ([if x:], [not x], [x or y]). *)
Class Truthy (A : Type) := truthy : A → bool.

(** A string is false exactly when it is empty. *)
#[global] Instance str_truthy : Truthy string :=
  fun s => match s with EmptyString => false | String _ _ => true end.

(** [None] is false; any other object has its own truth value. *)
#[global] Instance option_truthy {A} `{Truthy A} : Truthy (option A) :=
  fun o => match o with None => false | Some a => truthy a end.

(** Objects are true unless their class says otherwise.  The framework's
    user model defines neither [__bool__] nor [__len__]: its instances are
    true. *)
#[global] Instance User_truthy : Truthy User := fun _ => true.

(** [Exception] and [BrowserIDException] define neither [__bool__] nor
    [__len__] either; an exception is false only when its own class makes
    it so. *)
#[global] Instance PyException_truthy : Truthy PyException :=
  fun e => match e with FalsyException _ => false | _ => true end.

(** [x or d] where [x] is a string or [None] and [d] a string. *)
Definition py_or (x : option string) (d : string) : string :=
  match x with
  | Some s => if truthy s then s else d
  | None => d
  end.

(** [getattr(obj, name, default)] on an object whose attributes are strings. *)
Definition getattr (obj : gmap string string) (name default : string) : string :=
  match obj !! name with
  | Some v => v
  | None => default
  end.

(** ** Strings: [str.upper], [str.lower], [sep.join]

    A string is modelled by its bytes.  On ASCII strings, which the names
    of HTTP methods are, [upper] and [lower] are Python's [str.upper] and
    [str.lower].  Python's functions follow Unicode on other characters
    (a letter may change into two, or into an ASCII one); the model leaves
    those bytes as they are, so a statement that rests on the upper or
    lower case of a name takes the name to be ASCII ([is_ascii]). *)

Definition ascii_upper (c : ascii) : ascii :=
  let n := nat_of_ascii c in
  if ((97 <=? n) && (n <=? 122))%nat then ascii_of_nat (n - 32) else c.

Definition ascii_lower (c : ascii) : ascii :=
  let n := nat_of_ascii c in
  if ((65 <=? n) && (n <=? 90))%nat then ascii_of_nat (n + 32) else c.

Fixpoint upper (s : string) : string :=
  match s with
  | EmptyString => EmptyString
  | String c s' => String (ascii_upper c) (upper s')
  end.

Fixpoint lower (s : string) : string :=
  match s with
  | EmptyString => EmptyString
  | String c s' => String (ascii_lower c) (lower s')
  end.

Fixpoint join (sep : string) (l : list string) : string :=
  match l with
  | [] => ""
  | [x] => x
  | x :: rest => x ++ sep ++ join sep rest
  end.

(** [s.split(", ")], the way the repository's tests read the [Allow]
    header back: the string is cut at every occurrence of the separator,
    found from left to right; [word] is the piece read so far. *)
Fixpoint split_from (word s : string) : list string :=
  match s with
  | EmptyString => [word]
  | String c rest =>
      match rest with
      | EmptyString => [word ++ String c EmptyString]
      | String c' rest' =>
          if Ascii.eqb c "," && Ascii.eqb c' " "
          then word :: split_from "" rest'
          else split_from (word ++ String c EmptyString) rest
      end
  end.

Definition split_comma_space (s : string) : list string := split_from "" s.

(** An ASCII character, and one that is no capital letter. *)
Definition ascii_plain (c : ascii) : bool := (nat_of_ascii c <? 128)%nat.

Definition ascii_small (c : ascii) : bool :=
  ascii_plain c && negb ((65 <=? nat_of_ascii c) && (nat_of_ascii c <=? 90))%nat.

(** [s.isascii()] *)
Fixpoint is_ascii (s : string) : bool :=
  match s with
  | EmptyString => true
  | String c rest => ascii_plain c && is_ascii rest
  end.

(** [s.isascii()] and no capital letter in [s]: an ASCII string that
    [str.lower] leaves as it is. *)
Fixpoint lower_case (s : string) : bool :=
  match s with
  | EmptyString => true
  | String c rest => ascii_small c && lower_case rest
  end.

(** [sub in s] *)
Definition contains (s sub : string) : Prop :=
  ∃ before after, s = before ++ sub ++ after.

(** No comma in the string. *)
Fixpoint comma_free (s : string) : bool :=
  match s with
  | EmptyString => true
  | String c rest => negb (Ascii.eqb c ",") && comma_free rest
  end.

(** ** Requests and responses *)

(** What the handlers read of the inbound request. *)
Record HttpRequest := {
  method : string;
  POST : gmap string string;
  get_host : string
}.

Inductive Content :=
  | JSON (d : gmap string string)
  | Text (s : string).

(** A response: its body, its status and the headers that the handlers'
    own code sets.  What the framework adds to every response (the content
    type and the like) is left out. *)
Record HttpResponse := {
  content : Content;
  status_code : Z;
  headers : gmap string string
}.

(** [HttpResponse(content)]: status 200 unless given. *)
Definition HttpResponse_new (s : string) : HttpResponse :=
  {| content := Text s; status_code := 200; headers := ∅ |}.

(** Modelled from the spec: [JSONResponse] of [django_browserid/http.py],
    which is not among the sources.  The outbound response is a JSON body,
    a mapping of string keys to string values, plus an HTTP status code
    (200 when the caller gives none) and headers. *)
Definition JSONResponse (d : gmap string string) (status : Z) : HttpResponse :=
  {| content := JSON d; status_code := status; headers := ∅ |}.

(** [response[name] = value] *)
Definition set_header (name value : string) (r : HttpResponse) : HttpResponse :=
  {| content := content r; status_code := status_code r;
     headers := <[name := value]> (headers r) |}.

(** ** The world outside the handlers *)

(** Calls that leave the handler, in the order they are made. *)
Inductive Event :=
  | EvSanityChecks (request : HttpRequest)
  | EvAuthenticate (request : HttpRequest) (assertion : string)
  | EvLogin (request : HttpRequest) (user : User)
  | EvLogout (request : HttpRequest)
  | EvLoggerError (error : PyException)
  | EvForced (token : string).

Record World := {
  session : option User;
  events : list Event
}.

Definition emit (ev : Event) (w : World) : World :=
  {| session := session w; events := events w ++ [ev] |}.

(** ** State and exceptions *)

Inductive Outcome (A : Type) :=
  | Returns (a : A)
  | Raises (e : PyException).
Arguments Returns {A} a.
Arguments Raises {A} e.

Definition M (A : Type) : Type := World → Outcome A * World.

Definition ret {A} (a : A) : M A := fun w => (Returns a, w).

Definition bind {A B} (m : M A) (k : A → M B) : M B :=
  fun w =>
    match m w with
    | (Returns a, w') => k a w'
    | (Raises e, w') => (Raises e, w')
    end.

Definition raise {A} (e : PyException) : M A := fun w => (Raises e, w).

Notation "'let!' x ':=' m 'in' k" := (bind m (fun x => k))
  (at level 10, x name, m at level 100, k at level 200).
Notation "'do!' m 'in' k" := (bind m (fun _ => k))
  (at level 10, m at level 100, k at level 200).

(** [try: body  except Exception as e: handler(e)] *)
Definition try_except_Exception {A} (body : M A) (handler : PyException → M A) : M A :=
  fun w =>
    match body w with
    | (Returns a, w') => (Returns a, w')
    | (Raises e, w') =>
        if isinstance_Exception e then handler e w' else (Raises e, w')
    end.

(** [auth.login(request, user)]: the framework binds the user to the session. *)
Definition auth_login (request : HttpRequest) (user : User) : M unit :=
  fun w => (Returns tt, emit (EvLogin request user)
                             {| session := Some user; events := events w |}).

(** [auth.logout(request)]: the framework flushes the session. *)
Definition auth_logout (request : HttpRequest) : M unit :=
  fun w => (Returns tt, emit (EvLogout request)
                             {| session := None; events := events w |}).

(** [logger.error(error)] *)
Definition logger_error (error : PyException) : M unit :=
  fun w => (Returns tt, emit (EvLoggerError error) w).

(** A value found in the template context: a string, or a lazy proxy that
    is computed (with a visible effect) when it is turned into text. *)
Inductive ContextValue :=
  | Plain (s : string)
  | Lazy (s : string).

(** [six.text_type(v)] *)
Definition text_type (v : ContextValue) : M string :=
  match v with
  | Plain s => ret s
  | Lazy s => fun w => (Returns s, emit (EvForced s) w)
  end.

(** ** The views *)

Abbreviation Handler := (HttpRequest → M HttpResponse).

(** A view instance, as far as dispatch looks at it: the method names the
    framework knows, and the handler methods found on the instance. *)
Record View := {
  http_method_names : list string;
  methods : gmap string Handler
}.

(** [hasattr(self, m)] for a method name [m]. *)
Definition hasattr (self : View) (m : string) : bool :=
  bool_decide (is_Some (methods self !! m)).

(** A subclass that defines one more handler method. *)
Definition subclass (base : View) (name : string) (h : Handler) : View :=
  {| http_method_names := http_method_names base;
     methods := <[name := h]> (methods base) |}.

Module JSONView.

Definition allowed_methods (self : View) : list string :=
  upper <$> filter (λ m, hasattr self m = true) (http_method_names self).

Definition http_method_not_allowed (self : View) : M HttpResponse :=
  let response := JSONResponse {[ "error" := "Method not allowed." ]} 405 in
  let response := set_header "Allow" (join ", " (allowed_methods self)) response in
  ret response.

(** The framework's [View.dispatch], which every view inherits. *)
Definition dispatch (self : View) (request : HttpRequest) : M HttpResponse :=
  if bool_decide (lower (method request) ∈ http_method_names self) then
    match methods self !! lower (method request) with
    | Some handler => handler request
    | None => http_method_not_allowed self
    end
  else http_method_not_allowed self.

End JSONView.

Section Resolver.

(** [is_safe_url(url, host=host)], the framework's URL-safety validator. *)
Variable is_safe_url : option string → string → bool.

Definition _get_next (request : HttpRequest) : option string :=
  let next := POST request !! "next" in
  if is_safe_url next (get_host request) then next else None.

End Resolver.

Module Verify.
Section Verify.

(** Process-wide configuration, read-only while a request is handled. *)
Variable settings : gmap string string.

Variable is_safe_url : option string → string → bool.

(** [auth.authenticate(request=request, assertion=assertion)], what the
    authentication backend answers: a principal, [None], or an error. *)
Variable authenticate : HttpRequest → string → Outcome (option User).

(** [sanity_checks(request)] of [django_browserid/base.py], which is not
    among the sources: [None] when the request passes, the error raised
    when the request is rejected. *)
Variable sanity_checks : HttpRequest → option PyException.

(** The framework's [View] class, which the handler extends. *)
Variable base : View.

Definition auth_authenticate (request : HttpRequest) (assertion : string)
  : M (option User) :=
  fun w => (authenticate request assertion,
            emit (EvAuthenticate request assertion) w).

Definition run_sanity_checks (request : HttpRequest) : M unit :=
  fun w =>
    match sanity_checks request with
    | None => (Returns tt, emit (EvSanityChecks request) w)
    | Some e => (Raises e, emit (EvSanityChecks request) w)
    end.

Definition failure_url : string :=
  getattr settings "LOGIN_REDIRECT_URL_FAILURE" "/".

Definition success_url : string :=
  getattr settings "LOGIN_REDIRECT_URL" "/".

(** [self.request] and [self.user] are passed as arguments. *)
Definition login_success (request : HttpRequest) (user : User) : M HttpResponse :=
  do! auth_login request user in
  ret (JSONResponse {[ "email" := email user;
                       "redirect" := py_or (_get_next is_safe_url request) success_url ]}
                    200).

Definition login_failure (error : option PyException) : M HttpResponse :=
  do! (match error with
       | Some e => if truthy e then logger_error e else ret tt
       | None => ret tt
       end) in
  ret (JSONResponse {[ "redirect" := failure_url ]} 403).

Definition post (request : HttpRequest) : M HttpResponse :=
  match POST request !! "assertion" with
  | None => login_failure None
  | Some assertion =>
      if negb (truthy assertion) then login_failure None
      else
        let! r := try_except_Exception
                    (let! user := auth_authenticate request assertion in ret (inl user))
                    (fun e => let! resp := login_failure (Some e) in ret (inr resp)) in
        match r with
        | inr resp => ret resp
        | inl None => login_failure None
        | inl (Some user) =>
            if truthy user && is_active user then login_success request user
            else login_failure None
        end
  end.

Definition view : View := subclass base "post" post.

Definition dispatch (request : HttpRequest) : M HttpResponse :=
  do! run_sanity_checks request in
  JSONView.dispatch view request.

End Verify.
End Verify.

Module CsrfToken.
Section CsrfToken.

(** [RequestContext(request)], the template context of a request. *)
Variable RequestContext : HttpRequest → gmap string ContextValue.

(** The framework's [never_cache] decorator: the response of the wrapped
    handler leaves with a zero cache age, the [Cache-Control] value that
    [test_never_cache] of the repository's tests reads. *)
Definition never_cache (handler : Handler) : Handler :=
  fun request =>
    let! response := handler request in
    ret (set_header "Cache-Control" "max-age=0" response).

Definition get : Handler :=
  never_cache (fun request =>
    let context := RequestContext request in
    let! csrf_token := text_type (default (Plain "") (context !! "csrf_token")) in
    ret (HttpResponse_new csrf_token)).

End CsrfToken.
End CsrfToken.

Module Logout.
Section Logout.

Variable settings : gmap string string.
Variable is_safe_url : option string → string → bool.

Definition redirect_url : string :=
  getattr settings "LOGOUT_REDIRECT_URL" "/".

Definition post (request : HttpRequest) : M HttpResponse :=
  do! auth_logout request in
  ret (JSONResponse {[ "redirect" := py_or (_get_next is_safe_url request) redirect_url ]}
                    200).

End Logout.
End Logout.

(** ** Response shapes *)

(** The keys of a JSON body; a text body has none. *)
Definition keys (r : HttpResponse) : gset string :=
  match content r with
  | JSON d => dom d
  | Text _ => ∅
  end.

(** A success payload: email and redirect, status 200. *)
Definition success_payload (r : HttpResponse) : Prop :=
  status_code r = 200 ∧ "email" ∈ keys r ∧ "redirect" ∈ keys r.

(** A failure payload: redirect only, and a status other than 200. *)
Definition failure_payload (r : HttpResponse) : Prop :=
  status_code r ≠ 200 ∧ keys r = {[ "redirect" ]}.

(** ** A concrete deployment

    One configuration, validator and backend on which the handlers can be
    run: the settings and the principals of the repository's tests. *)
Module Scenario.

Definition settings : gmap string string :=
  {[ "LOGIN_REDIRECT_URL" := "/success";
     "LOGIN_REDIRECT_URL_FAILURE" := "/fail" ]}.

(** A validator that accepts site-relative paths only. *)
Definition is_safe_url (url : option string) (host : string) : bool :=
  match url with
  | Some (String "/" EmptyString) => true
  | Some (String "/" (String c _)) => negb (Ascii.eqb c "/")
  | _ => false
  end.

Definition alice : User := {| email := "a@b.com"; is_active := true |}.
Definition mallory : User := {| email := "m@b.com"; is_active := false |}.

Definition authenticate (request : HttpRequest) (assertion : string)
  : Outcome (option User) :=
  if String.eqb assertion "valid-token" then Returns (Some alice)
  else if String.eqb assertion "retired-token" then Returns (Some mallory)
  else if String.eqb assertion "forged-token" then
    Raises (BrowserIDException "hsakjw")
  else if String.eqb assertion "backend-down" then
    Raises (OtherException "Exception" "hsakjw")
  else Returns None.

Definition RequestContext (request : HttpRequest) : gmap string ContextValue :=
  {[ "csrf_token" := Lazy "asdf" ]}.

Definition sanity_checks (request : HttpRequest) : option PyException := None.

Definition post_request (params : gmap string string) : HttpRequest :=
  {| method := "POST"; POST := params; get_host := "testserver" |}.

Definition get_request : HttpRequest :=
  {| method := "GET"; POST := ∅; get_host := "testserver" |}.

Definition anonymous : World := {| session := None; events := [] |}.
Definition logged_in : World := {| session := Some alice; events := [] |}.

(** A framework base class that brings no handler method of its own. *)
Definition View_class : View :=
  {| http_method_names :=
       ["get"; "post"; "put"; "delete"; "head"; "options"; "trace"];
     methods := ∅ |}.

(** The Verify handler over that base class. *)
Definition verify_view : View :=
  Verify.view settings is_safe_url authenticate View_class.

(** What a GET to the Verify handler is answered with. *)
Definition not_allowed : HttpResponse :=
  {| content := JSON {[ "error" := "Method not allowed." ]};
     status_code := 405;
     headers := {[ "Allow" := "POST" ]} |}.

(** What a POST to the Logout handler is answered with. *)
Definition logged_out : HttpResponse :=
  {| content := JSON {[ "redirect" := "/" ]};
     status_code := 200;
     headers := ∅ |}.

End Scenario.

(** * Properties *)

(** ** The small monad *)

Lemma emit_emit ev1 ev2 w :
  emit ev2 (emit ev1 w) =
  {| session := session w; events := events w ++ [ev1; ev2] |}.
Proof. unfold emit; simpl. by rewrite <- app_assoc. Qed.

Lemma World_eta w : {| session := session w; events := events w |} = w.
Proof. by destruct w. Qed.

(** ** Truth values and defaults *)

Lemma truthy_str s : truthy s = true ↔ s ≠ "".
Proof. destruct s; simpl; split; intros; done. Qed.

Lemma getattr_default obj name d : getattr obj name d = default d (obj !! name).
Proof. unfold getattr. by destruct (obj !! name). Qed.

Lemma py_or_cases x d :
  py_or x d =
  match x with
  | Some s => if decide (s = "") then d else s
  | None => d
  end.
Proof. destruct x as [[|c s]|]; done. Qed.

Lemma py_or_nonempty s d : s ≠ "" → py_or (Some s) d = s.
Proof. intros Hs. unfold py_or. by apply truthy_str in Hs as ->. Qed.

(** ** The redirect-target resolver *)

Section ResolverFacts.

Variable is_safe_url : option string → string → bool.

Lemma get_next_Some request next :
  _get_next is_safe_url request = Some next ↔
  POST request !! "next" = Some next ∧
  is_safe_url (Some next) (get_host request) = true.
Proof.
  unfold _get_next.
  destruct (POST request !! "next") as [v|] eqn:Hnext.
  - destruct (is_safe_url (Some v) (get_host request)) eqn:Hsafe.
    + split; [intros [= ->]; by rewrite Hsafe | by intros [-> _]].
    + split; [done | intros [[= ->] Habs]; congruence].
  - destruct (is_safe_url None (get_host request));
      (split; [done | by intros [? _]]).
Qed.

Lemma get_next_unsafe request next :
  POST request !! "next" = Some next →
  is_safe_url (Some next) (get_host request) = false →
  _get_next is_safe_url request = None.
Proof. intros Hnext Hsafe. unfold _get_next. by rewrite Hnext, Hsafe. Qed.

Lemma get_next_absent request :
  POST request !! "next" = None → _get_next is_safe_url request = None.
Proof.
  intros Hnext. unfold _get_next. rewrite Hnext.
  by destruct (is_safe_url None (get_host request)).
Qed.

Lemma get_next_None request :
  _get_next is_safe_url request = None ↔
  POST request !! "next" = None ∨
  is_safe_url (POST request !! "next") (get_host request) = false.
Proof.
  split.
  - intros Hnone. destruct (POST request !! "next") as [v|] eqn:Hnext; [|by left].
    right. destruct (is_safe_url (Some v) (get_host request)) eqn:Hsafe; [|done].
    assert (_get_next is_safe_url request = Some v) as Hsome
      by (by apply get_next_Some). congruence.
  - intros [Hnext | Hsafe]; [by apply get_next_absent|].
    unfold _get_next. by rewrite Hsafe.
Qed.

(** A validator that never approves the empty URL never lets the
    resolver return it. *)
Lemma get_next_not_empty request :
  (∀ host, is_safe_url (Some "") host = false) →
  _get_next is_safe_url request ≠ Some "".
Proof. intros Hempty [_ Hsafe]%get_next_Some. by rewrite Hempty in Hsafe. Qed.

Lemma py_or_get_next request d :
  (∀ host, is_safe_url (Some "") host = false) →
  py_or (_get_next is_safe_url request) d =
  default d (_get_next is_safe_url request).
Proof.
  intros Hempty. pose proof (get_next_not_empty request Hempty) as Hne.
  destruct (_get_next is_safe_url request) as [s|]; [|done].
  simpl. apply py_or_nonempty. congruence.
Qed.

End ResolverFacts.

(** ** The Verify handler, branch by branch *)

Section VerifyFacts.

Variable settings : gmap string string.
Variable is_safe_url : option string → string → bool.
Variable authenticate : HttpRequest → string → Outcome (option User).

Abbreviation post := (Verify.post settings is_safe_url authenticate).
Abbreviation login_failure := (Verify.login_failure settings).
Abbreviation login_success := (Verify.login_success settings is_safe_url).
Abbreviation failure_url := (Verify.failure_url settings).
Abbreviation success_url := (Verify.success_url settings).

Lemma login_failure_run error w :
  login_failure error w =
  (Returns (JSONResponse {[ "redirect" := failure_url ]} 403),
   {| session := session w;
      events := events w ++
                match error with
                | Some e => if truthy e then [EvLoggerError e] else []
                | None => []
                end |}).
Proof.
  destruct error as [e|]; unfold Verify.login_failure, bind, ret; simpl.
  - destruct (truthy e); simpl; [done|]. by rewrite app_nil_r, World_eta.
  - by rewrite app_nil_r, World_eta.
Qed.

Lemma login_failure_quiet w :
  login_failure None w =
  (Returns (JSONResponse {[ "redirect" := failure_url ]} 403), w).
Proof. rewrite login_failure_run. simpl. by rewrite app_nil_r, World_eta. Qed.

Lemma login_success_run request user w :
  login_success request user w =
  (Returns (JSONResponse
              {[ "email" := email user;
                 "redirect" := py_or (_get_next is_safe_url request) success_url ]}
              200),
   {| session := Some user; events := events w ++ [EvLogin request user] |}).
Proof. done. Qed.

Lemma post_missing request w :
  POST request !! "assertion" = None →
  post request w =
  (Returns (JSONResponse {[ "redirect" := failure_url ]} 403), w).
Proof. intros Hpost. unfold Verify.post. rewrite Hpost. apply login_failure_quiet. Qed.

Lemma post_empty request w :
  POST request !! "assertion" = Some "" →
  post request w =
  (Returns (JSONResponse {[ "redirect" := failure_url ]} 403), w).
Proof. intros Hpost. unfold Verify.post. rewrite Hpost. apply login_failure_quiet. Qed.

Section Authenticating.

Variables (request : HttpRequest) (assertion : string) (w : World).
Hypothesis Hpost : POST request !! "assertion" = Some assertion.
Hypothesis Hgiven : assertion ≠ "".

Lemma post_authenticating :
  post request w =
  match authenticate request assertion with
  | Returns (Some user) =>
      if is_active user
      then login_success request user (emit (EvAuthenticate request assertion) w)
      else login_failure None (emit (EvAuthenticate request assertion) w)
  | Returns None =>
      login_failure None (emit (EvAuthenticate request assertion) w)
  | Raises e =>
      if isinstance_Exception e
      then login_failure (Some e) (emit (EvAuthenticate request assertion) w)
      else (Raises e, emit (EvAuthenticate request assertion) w)
  end.
Proof.
  unfold Verify.post. rewrite Hpost.
  apply truthy_str in Hgiven as ->. simpl.
  unfold bind at 1, try_except_Exception, bind at 1, Verify.auth_authenticate.
  destruct (authenticate request assertion) as [[user|]|e]; simpl.
  - by destruct (is_active user).
  - done.
  - destruct (isinstance_Exception e); [|done].
    unfold bind at 1. by rewrite login_failure_run.
Qed.

Lemma post_active user :
  authenticate request assertion = Returns (Some user) →
  is_active user = true →
  post request w =
  (Returns (JSONResponse
              {[ "email" := email user;
                 "redirect" := py_or (_get_next is_safe_url request) success_url ]}
              200),
   {| session := Some user;
      events := events w ++ [EvAuthenticate request assertion;
                             EvLogin request user] |}).
Proof.
  intros Hauth Hactive. rewrite post_authenticating, Hauth, Hactive.
  rewrite login_success_run. simpl. by rewrite <- app_assoc.
Qed.

Lemma post_rejected user :
  authenticate request assertion = Returns user →
  user = None ∨ (∃ u, user = Some u ∧ is_active u = false) →
  post request w =
  (Returns (JSONResponse {[ "redirect" := failure_url ]} 403),
   {| session := session w;
      events := events w ++ [EvAuthenticate request assertion] |}).
Proof.
  intros Hauth Huser. rewrite post_authenticating, Hauth.
  destruct Huser as [-> | (u & -> & ->)]; by rewrite login_failure_quiet.
Qed.

Lemma post_raised e :
  authenticate request assertion = Raises e →
  isinstance_Exception e = true →
  post request w =
  (Returns (JSONResponse {[ "redirect" := failure_url ]} 403),
   {| session := session w;
      events := events w ++
                EvAuthenticate request assertion ::
                (if truthy e then [EvLoggerError e] else []) |}).
Proof.
  intros Hauth Hexc. rewrite post_authenticating, Hauth, Hexc.
  rewrite login_failure_run. simpl. by rewrite <- app_assoc.
Qed.

Lemma post_exit e :
  authenticate request assertion = Raises e →
  isinstance_Exception e = false →
  post request w = (Raises e, emit (EvAuthenticate request assertion) w).
Proof. intros Hauth Hexc. by rewrite post_authenticating, Hauth, Hexc. Qed.

End Authenticating.

End VerifyFacts.

(** ** The method-not-allowed envelope *)

Lemma hasattr_true self m : hasattr self m = true ↔ is_Some (methods self !! m).
Proof. unfold hasattr. apply bool_decide_eq_true. Qed.

Lemma elem_of_allowed_methods self name :
  name ∈ JSONView.allowed_methods self ↔
  ∃ m, m ∈ http_method_names self ∧ is_Some (methods self !! m) ∧ name = upper m.
Proof.
  unfold JSONView.allowed_methods. rewrite list_elem_of_fmap. split.
  - intros (m & -> & [Hattr Hin]%list_elem_of_filter).
    exists m. by rewrite <- hasattr_true.
  - intros (m & Hin & Hattr & ->). exists m. split; [done|].
    apply list_elem_of_filter. by rewrite hasattr_true.
Qed.

Lemma http_method_not_allowed_run self w :
  JSONView.http_method_not_allowed self w =
  (Returns {| content := JSON {[ "error" := "Method not allowed." ]};
              status_code := 405;
              headers := {[ "Allow" := join ", " (JSONView.allowed_methods self) ]} |},
   w).
Proof.
  unfold JSONView.http_method_not_allowed, ret, set_header, JSONResponse; simpl.
  by rewrite insert_empty.
Qed.

Lemma dispatch_unsupported self request :
  lower (method request) ∉ http_method_names self ∨
  methods self !! lower (method request) = None →
  JSONView.dispatch self request = JSONView.http_method_not_allowed self.
Proof.
  intros Hun. unfold JSONView.dispatch. case_bool_decide as Hin; [|done].
  destruct Hun as [Hnot | ->]; done.
Qed.

Lemma dispatch_supported self request handler :
  lower (method request) ∈ http_method_names self →
  methods self !! lower (method request) = Some handler →
  JSONView.dispatch self request = handler request.
Proof.
  intros Hin Hm. unfold JSONView.dispatch. rewrite bool_decide_eq_true_2 by done.
  by rewrite Hm.
Qed.

(** ** The Logout handler *)

Lemma logout_post_run settings is_safe_url request w :
  Logout.post settings is_safe_url request w =
  (Returns (JSONResponse
              {[ "redirect" := py_or (_get_next is_safe_url request)
                                     (Logout.redirect_url settings) ]}
              200),
   {| session := None; events := events w ++ [EvLogout request] |}).
Proof. done. Qed.

(** ** The CSRF token handler *)

Lemma csrf_get_run RequestContext request w :
  CsrfToken.get RequestContext request w =
  match RequestContext request !! "csrf_token" with
  | Some (Lazy s) =>
      (Returns {| content := Text s; status_code := 200;
                  headers := {[ "Cache-Control" := "max-age=0" ]} |},
       emit (EvForced s) w)
  | Some (Plain s) =>
      (Returns {| content := Text s; status_code := 200;
                  headers := {[ "Cache-Control" := "max-age=0" ]} |}, w)
  | None =>
      (Returns {| content := Text ""; status_code := 200;
                  headers := {[ "Cache-Control" := "max-age=0" ]} |}, w)
  end.
Proof.
  unfold CsrfToken.get, CsrfToken.never_cache, bind, ret, set_header, HttpResponse_new.
  destruct (RequestContext request !! "csrf_token") as [[s|s]|]; simpl;
    by rewrite insert_empty.
Qed.

(** ** The handlers at work

    The scenarios of the repository's tests, run on the embedding. *)

Example upper_post : upper "post" = "POST" ∧ lower "GET" = "get".
Proof. split; reflexivity. Qed.

Example join_allowed : join ", " ["GET"; "POST"; "HEAD"] = "GET, POST, HEAD".
Proof. reflexivity. Qed.

(** [test_http_method_not_allowed_allowed_methods]: a view with [get] and
    [post]. *)
Example allow_get_post :
  JSONView.http_method_not_allowed
    (subclass (subclass Scenario.View_class "get" (λ _, ret Scenario.logged_out))
              "post" (λ _, ret Scenario.logged_out))
    Scenario.anonymous =
  (Returns {| content := JSON {[ "error" := "Method not allowed." ]};
              status_code := 405;
              headers := {[ "Allow" := "GET, POST" ]} |},
   Scenario.anonymous).
Proof. vm_compute. reflexivity. Qed.

(** [test_is_safe] and [test_isnt_safe]: the resolver follows the validator. *)
Example get_next_follows_validator :
  _get_next (λ _ _, true) (Scenario.post_request {[ "next" := "/asdf" ]}) =
    Some "/asdf"
  ∧ _get_next (λ _ _, false) (Scenario.post_request {[ "next" := "/asdf" ]}) =
    None
  ∧ _get_next (λ _ _, true) (Scenario.post_request ∅) = None.
Proof. repeat split; reflexivity. Qed.

(** [test_login_success_next]: the resolved URL goes before the setting. *)
Example login_success_next :
  fst (Verify.login_success Scenario.settings Scenario.is_safe_url
         (Scenario.post_request {[ "next" := "/?qwer" ]}) Scenario.alice
         Scenario.anonymous) =
  Returns {| content := JSON {[ "email" := "a@b.com"; "redirect" := "/?qwer" ]};
             status_code := 200;
             headers := ∅ |}.
Proof. vm_compute. reflexivity. Qed.

(** An off-site [next] is dropped. *)
Example login_success_offsite_next :
  fst (Verify.login_success Scenario.settings Scenario.is_safe_url
         (Scenario.post_request {[ "next" := "//evil.example/" ]}) Scenario.alice
         Scenario.anonymous) =
  Returns {| content := JSON {[ "email" := "a@b.com"; "redirect" := "/success" ]};
             status_code := 200;
             headers := ∅ |}.
Proof. vm_compute. reflexivity. Qed.

(** [test_lazy_token_called]: the lazy token is computed and sent. *)
Example csrf_lazy_token :
  CsrfToken.get Scenario.RequestContext Scenario.get_request Scenario.anonymous =
  (Returns {| content := Text "asdf";
              status_code := 200;
              headers := {[ "Cache-Control" := "max-age=0" ]} |},
   {| session := None; events := [EvForced "asdf"] |}).
Proof. vm_compute. reflexivity. Qed.

(** An exit signal from the backend is not caught by the handler. *)
Example exit_signal_passes :
  Verify.post Scenario.settings Scenario.is_safe_url
    (λ _ _, Raises (ExitSignal "KeyboardInterrupt"))
    (Scenario.post_request {[ "assertion" := "asdf" ]}) Scenario.anonymous =
  (Raises (ExitSignal "KeyboardInterrupt"),
   {| session := None;
      events := [EvAuthenticate
                   (Scenario.post_request {[ "assertion" := "asdf" ]}) "asdf"] |}).
Proof. vm_compute. reflexivity. Qed.

(** * The claims *)



(** C2. A POST to the Verify handler without an [assertion] parameter is
    answered 403 with the JSON body [{redirect: failure URL}], the failure
    URL being the setting [LOGIN_REDIRECT_URL_FAILURE], or ["/"] when the
    setting is absent.  The world is left as it was: whatever the backend
    is, it is not called, and nothing is logged. *)
Theorem verify_post_no_assertion
    (settings : gmap string string)
    (is_safe_url : option string → string → bool)
    (authenticate : HttpRequest → string → Outcome (option User))
    (request : HttpRequest) (w : World) :
  POST request !! "assertion" = None →
  Verify.post settings is_safe_url authenticate request w =
    (Returns {| content :=
                  JSON {[ "redirect" :=
                            default "/" (settings !! "LOGIN_REDIRECT_URL_FAILURE") ]};
                status_code := 403;
                headers := ∅ |},
     w).
Proof.
  intros Hpost. rewrite post_missing by done.
  unfold JSONResponse, Verify.failure_url. by rewrite getattr_default.
Qed.

Lemma verify_post_no_assertion_witness :
  Verify.post Scenario.settings Scenario.is_safe_url Scenario.authenticate
    (Scenario.post_request {[ "blah" := "asdf" ]}) Scenario.anonymous =
  (Returns {| content := JSON {[ "redirect" := "/fail" ]};
              status_code := 403;
              headers := ∅ |},
   Scenario.anonymous).
Proof.
  refine (verify_post_no_assertion
            Scenario.settings Scenario.is_safe_url Scenario.authenticate
            (Scenario.post_request {[ "blah" := "asdf" ]}) Scenario.anonymous _).
  reflexivity.
Defined.

(** The failure path after an error of the backend.  When the backend
    raises an error, be it the verification error or any other instance of
    [Exception], the Verify handler answers with the one failure response,
    403 and [{redirect: failure URL}].  The failure path tests [if error:]:
    it logs its argument, once and at error severity, when it is given an
    error object and that object is true in a condition, as an exception
    is unless its own class makes it false; without an error object
    nothing is logged. *)
Lemma verify_post_backend_error
    (settings : gmap string string)
    (is_safe_url : option string → string → bool)
    (authenticate : HttpRequest → string → Outcome (option User))
    (request : HttpRequest) (assertion : string) (e : PyException) (w : World) :
  POST request !! "assertion" = Some assertion →
  assertion ≠ "" →
  authenticate request assertion = Raises e →
  isinstance_Exception e = true →
  let failure :=
    {| content :=
         JSON {[ "redirect" :=
                   default "/" (settings !! "LOGIN_REDIRECT_URL_FAILURE") ]};
       status_code := 403;
       headers := ∅ |} in
  Verify.post settings is_safe_url authenticate request w =
    (Returns failure,
     {| session := session w;
        events := events w ++
                  EvAuthenticate request assertion ::
                  (if truthy e then [EvLoggerError e] else []) |})
  ∧ (∀ (error : option PyException) (w' : World),
       Verify.login_failure settings error w' =
       (Returns failure,
        {| session := session w';
           events := events w' ++
                     match error with
                     | Some err => if truthy err then [EvLoggerError err] else []
                     | None => []
                     end |})).
Proof.
  intros Hpost Hgiven Hauth Hexc failure. subst failure. split.
  - rewrite (post_raised _ _ _ _ _ w Hpost Hgiven e Hauth Hexc).
    unfold JSONResponse, Verify.failure_url. by rewrite getattr_default.
  - intros error w'. rewrite login_failure_run.
    unfold JSONResponse, Verify.failure_url. by rewrite getattr_default.
Qed.

Lemma verify_post_backend_error_witness :
  Verify.post Scenario.settings Scenario.is_safe_url Scenario.authenticate
    (Scenario.post_request {[ "assertion" := "forged-token" ]}) Scenario.anonymous =
  (Returns {| content := JSON {[ "redirect" := "/fail" ]};
              status_code := 403;
              headers := ∅ |},
   {| session := None;
      events := [EvAuthenticate
                   (Scenario.post_request {[ "assertion" := "forged-token" ]})
                   "forged-token";
                 EvLoggerError (BrowserIDException "hsakjw")] |})
  ∧
  Verify.post Scenario.settings Scenario.is_safe_url Scenario.authenticate
    (Scenario.post_request {[ "assertion" := "backend-down" ]}) Scenario.anonymous =
  (Returns {| content := JSON {[ "redirect" := "/fail" ]};
              status_code := 403;
              headers := ∅ |},
   {| session := None;
      events := [EvAuthenticate
                   (Scenario.post_request {[ "assertion" := "backend-down" ]})
                   "backend-down";
                 EvLoggerError (OtherException "Exception" "hsakjw")] |}).
Proof.
  split.
  - refine (proj1 (verify_post_backend_error
                     Scenario.settings Scenario.is_safe_url Scenario.authenticate
                     (Scenario.post_request {[ "assertion" := "forged-token" ]})
                     "forged-token" (BrowserIDException "hsakjw")
                     Scenario.anonymous _ _ _ _)).
    + reflexivity.
    + discriminate.
    + reflexivity.
    + reflexivity.
  - refine (proj1 (verify_post_backend_error
                     Scenario.settings Scenario.is_safe_url Scenario.authenticate
                     (Scenario.post_request {[ "assertion" := "backend-down" ]})
                     "backend-down" (OtherException "Exception" "hsakjw")
                     Scenario.anonymous _ _ _ _)).
    + reflexivity.
    + discriminate.
    + reflexivity.
    + reflexivity.
Defined.

(** C3.  The handler's docstring and [test_login_failure_log_exception]
    ("if login_failure is passed an exception, it should log it") say, as
    the claim does, that an error handed to the failure path is logged.
    The code tests [if error:], the truth value of the object, and so
    misses the errors that are false in a condition: an instance of an
    [Exception] subclass whose class makes it false is caught and handed
    to the failure path like any other, and the answer is the 403 failure
    response, but the error is not logged; the call to the backend is the
    only event. *)
Theorem verify_post_falsy_error_not_logged :
  isinstance_Exception (FalsyException "EmptyErrors") = true
  ∧ Verify.post Scenario.settings Scenario.is_safe_url
      (λ _ _, Raises (FalsyException "EmptyErrors"))
      (Scenario.post_request {[ "assertion" := "asdf" ]}) Scenario.anonymous =
    (Returns {| content := JSON {[ "redirect" := "/fail" ]};
                status_code := 403;
                headers := ∅ |},
     {| session := None;
        events := [EvAuthenticate
                     (Scenario.post_request {[ "assertion" := "asdf" ]})
                     "asdf"] |})
  ∧ (EvLoggerError (FalsyException "EmptyErrors")
     ∉ [EvAuthenticate (Scenario.post_request {[ "assertion" := "asdf" ]}) "asdf"])
  ∧ Verify.login_failure Scenario.settings
      (Some (FalsyException "EmptyErrors")) Scenario.anonymous =
    (Returns {| content := JSON {[ "redirect" := "/fail" ]};
                status_code := 403;
                headers := ∅ |},
     Scenario.anonymous).
Proof.
  split; [reflexivity|]. split; [vm_compute; reflexivity|]. split.
  - intros Hin. apply list_elem_of_singleton in Hin. discriminate.
  - vm_compute. reflexivity.
Qed.

(** C4. When the backend returns without raising and yields [None] or a
    principal whose active flag is false, the Verify handler answers 403
    with [{redirect: failure URL}].  The failure path is entered without an
    error object: the call to the backend is the only event, so nothing is
    logged and no session is established. *)
Theorem verify_post_no_active_principal
    (settings : gmap string string)
    (is_safe_url : option string → string → bool)
    (authenticate : HttpRequest → string → Outcome (option User))
    (request : HttpRequest) (assertion : string) (user : option User) (w : World) :
  POST request !! "assertion" = Some assertion →
  assertion ≠ "" →
  authenticate request assertion = Returns user →
  user = None ∨ (∃ u, user = Some u ∧ is_active u = false) →
  Verify.post settings is_safe_url authenticate request w =
    (Returns {| content :=
                  JSON {[ "redirect" :=
                            default "/" (settings !! "LOGIN_REDIRECT_URL_FAILURE") ]};
                status_code := 403;
                headers := ∅ |},
     {| session := session w;
        events := events w ++ [EvAuthenticate request assertion] |}).
Proof.
  intros Hpost Hgiven Hauth Huser.
  rewrite (post_rejected _ _ _ _ _ w Hpost Hgiven user Hauth Huser).
  unfold JSONResponse, Verify.failure_url. by rewrite getattr_default.
Qed.

Lemma verify_post_no_active_principal_witness :
  Verify.post Scenario.settings Scenario.is_safe_url Scenario.authenticate
    (Scenario.post_request {[ "assertion" := "asdf" ]}) Scenario.logged_in =
  (Returns {| content := JSON {[ "redirect" := "/fail" ]};
              status_code := 403;
              headers := ∅ |},
   {| session := Some Scenario.alice;
      events := [EvAuthenticate
                   (Scenario.post_request {[ "assertion" := "asdf" ]}) "asdf"] |})
  ∧
  Verify.post Scenario.settings Scenario.is_safe_url Scenario.authenticate
    (Scenario.post_request {[ "assertion" := "retired-token" ]}) Scenario.anonymous =
  (Returns {| content := JSON {[ "redirect" := "/fail" ]};
              status_code := 403;
              headers := ∅ |},
   {| session := None;
      events := [EvAuthenticate
                   (Scenario.post_request {[ "assertion" := "retired-token" ]})
                   "retired-token"] |}).
Proof.
  split.
  - refine (verify_post_no_active_principal
              Scenario.settings Scenario.is_safe_url Scenario.authenticate
              (Scenario.post_request {[ "assertion" := "asdf" ]})
              "asdf" None Scenario.logged_in _ _ _ _).
    + reflexivity.
    + discriminate.
    + reflexivity.
    + left. reflexivity.
  - refine (verify_post_no_active_principal
              Scenario.settings Scenario.is_safe_url Scenario.authenticate
              (Scenario.post_request {[ "assertion" := "retired-token" ]})
              "retired-token" (Some Scenario.mallory) Scenario.anonymous _ _ _ _).
    + reflexivity.
    + discriminate.
    + reflexivity.
    + right. exists Scenario.mallory. split; reflexivity.
Defined.

(** C10. A POST to the Verify handler whose [assertion] parameter is
    present but empty is handled as the missing-assertion case, response
    and world alike: 403 with [{redirect: failure URL}], and the world is
    left as it was, so the backend is not called. *)
Theorem verify_post_empty_assertion
    (settings : gmap string string)
    (is_safe_url : option string → string → bool)
    (authenticate : HttpRequest → string → Outcome (option User))
    (request : HttpRequest) (w : World) :
  POST request !! "assertion" = Some "" →
  Verify.post settings is_safe_url authenticate request w =
    (Returns {| content :=
                  JSON {[ "redirect" :=
                            default "/" (settings !! "LOGIN_REDIRECT_URL_FAILURE") ]};
                status_code := 403;
                headers := ∅ |},
     w)
  ∧ Verify.post settings is_safe_url authenticate request w =
    Verify.post settings is_safe_url authenticate
      {| method := method request;
         POST := delete "assertion" (POST request);
         get_host := get_host request |} w.
Proof.
  intros Hpost. rewrite post_empty by done. split.
  - unfold JSONResponse, Verify.failure_url. by rewrite getattr_default.
  - rewrite post_missing; [done|]. simpl. apply lookup_delete_eq.
Qed.

Lemma verify_post_empty_assertion_witness :
  Verify.post Scenario.settings Scenario.is_safe_url Scenario.authenticate
    (Scenario.post_request {[ "assertion" := "" ]}) Scenario.anonymous =
  (Returns {| content := JSON {[ "redirect" := "/fail" ]};
              status_code := 403;
              headers := ∅ |},
   Scenario.anonymous).
Proof.
  refine (proj1 (verify_post_empty_assertion
                   Scenario.settings Scenario.is_safe_url Scenario.authenticate
                   (Scenario.post_request {[ "assertion" := "" ]})
                   Scenario.anonymous _)).
  reflexivity.
Defined.

(** C5. The resolver returns the [next] POST parameter exactly when the
    parameter is present and the validator judges it safe for the
    request's host, and [None] otherwise.  It is a function of the request
    alone and leaves no trace in the world: the login and logout handlers
    record their own call and nothing else.  An unsafe [next] is not used:
    both handlers then answer with their configured default URL. *)
Theorem get_next_safe_or_none
    (is_safe_url : option string → string → bool) (request : HttpRequest) :
  (∀ next,
     _get_next is_safe_url request = Some next ↔
     POST request !! "next" = Some next ∧
     is_safe_url (Some next) (get_host request) = true)
  ∧ (_get_next is_safe_url request = None ↔
     POST request !! "next" = None ∨
     is_safe_url (POST request !! "next") (get_host request) = false)
  ∧ (∀ settings user w,
       snd (Verify.login_success settings is_safe_url request user w) =
         {| session := Some user; events := events w ++ [EvLogin request user] |}
       ∧ snd (Logout.post settings is_safe_url request w) =
         {| session := None; events := events w ++ [EvLogout request] |})
  ∧ (∀ next settings user w,
       POST request !! "next" = Some next →
       is_safe_url (Some next) (get_host request) = false →
       fst (Verify.login_success settings is_safe_url request user w) =
         Returns {| content :=
                      JSON {[ "email" := email user;
                              "redirect" :=
                                default "/" (settings !! "LOGIN_REDIRECT_URL") ]};
                    status_code := 200;
                    headers := ∅ |}
       ∧ fst (Logout.post settings is_safe_url request w) =
         Returns {| content :=
                      JSON {[ "redirect" :=
                                default "/" (settings !! "LOGOUT_REDIRECT_URL") ]};
                    status_code := 200;
                    headers := ∅ |}).
Proof.
  split; [intros next; apply get_next_Some|].
  split; [apply get_next_None|].
  split.
  - intros settings user w.
    by rewrite login_success_run, logout_post_run.
  - intros next settings user w Hnext Hsafe.
    rewrite login_success_run, logout_post_run.
    rewrite (get_next_unsafe _ _ _ Hnext Hsafe). simpl.
    unfold JSONResponse, Verify.success_url, Logout.redirect_url.
    by rewrite !getattr_default.
Qed.

(** C7. A POST to the Logout handler calls the framework's logout
    primitive, which ends the session whatever the redirect resolves to,
    and answers 200 with the JSON body [{redirect: r}], where [r] is the
    [next] URL when the resolver yields one (a non-empty URL) and otherwise
    the setting [LOGOUT_REDIRECT_URL], or ["/"] when the setting is absent.
    With a validator that never approves the empty URL, as the framework's
    does, [r] is the resolver's result whenever there is one. *)
Theorem logout_post_response
    (settings : gmap string string)
    (is_safe_url : option string → string → bool)
    (request : HttpRequest) (w : World) :
  let redirect_url := default "/" (settings !! "LOGOUT_REDIRECT_URL") in
  let redirect :=
    match _get_next is_safe_url request with
    | Some next => if decide (next = "") then redirect_url else next
    | None => redirect_url
    end in
  Logout.post settings is_safe_url request w =
    (Returns {| content := JSON {[ "redirect" := redirect ]};
                status_code := 200;
                headers := ∅ |},
     {| session := None; events := events w ++ [EvLogout request] |})
  ∧ ((∀ host, is_safe_url (Some "") host = false) →
     redirect = default redirect_url (_get_next is_safe_url request)).
Proof.
  intros redirect_url redirect. split.
  - rewrite logout_post_run. unfold JSONResponse, Logout.redirect_url.
    by rewrite py_or_cases, getattr_default.
  - intros Hempty. subst redirect.
    rewrite <- py_or_cases. by apply py_or_get_next.
Qed.

(** C8. A GET to the CSRF token handler answers 200 with a text body and
    the header [Cache-Control: max-age=0].  The body is the token of the
    template context turned into a string, the empty string when the
    context has no token; a lazy token is computed, leaving its trace in
    the world, before the response is built. *)
Theorem csrf_token_get_response
    (RequestContext : HttpRequest → gmap string ContextValue)
    (request : HttpRequest) (w : World) :
  let token := default (Plain "") (RequestContext request !! "csrf_token") in
  CsrfToken.get RequestContext request w =
    (Returns {| content := Text match token with Plain s | Lazy s => s end;
                status_code := 200;
                headers := {[ "Cache-Control" := "max-age=0" ]} |},
     match token with
     | Plain _ => w
     | Lazy s => emit (EvForced s) w
     end).
Proof.
  intros token. subst token. rewrite csrf_get_run.
  by destruct (RequestContext request !! "csrf_token") as [[s|s]|].
Qed.

(** ** Response shapes of the handlers *)

Lemma keys_JSONResponse d status : keys (JSONResponse d status) = dom d.
Proof. done. Qed.

Lemma keys_success e u :
  keys (JSONResponse {[ "email" := e; "redirect" := u ]} 200) =
  {[ "email"; "redirect" ]}.
Proof. rewrite keys_JSONResponse. set_solver. Qed.

Lemma keys_failure u :
  keys (JSONResponse {[ "redirect" := u ]} 403) = {[ "redirect" ]}.
Proof. rewrite keys_JSONResponse. set_solver. Qed.

Lemma failure_shape u :
  failure_payload (JSONResponse {[ "redirect" := u ]} 403) ∧
  status_code (JSONResponse {[ "redirect" := u ]} 403) = 403.
Proof. split; [split; [done | apply keys_failure] | done]. Qed.

Lemma success_shape e u :
  success_payload (JSONResponse {[ "email" := e; "redirect" := u ]} 200) ∧
  keys (JSONResponse {[ "email" := e; "redirect" := u ]} 200) =
    {[ "email"; "redirect" ]}.
Proof.
  pose proof (keys_success e u) as Hkeys.
  split; [|done]. split; [done|]. rewrite Hkeys. set_solver.
Qed.

Lemma success_not_failure r : success_payload r → ¬ failure_payload r.
Proof. intros [Hok _] [Hnot _]. done. Qed.

(** A POST through the handler's own [dispatch]: the sanity checks run
    first, then the framework hands the request to [post]. *)
Lemma verify_dispatch_post
    settings is_safe_url authenticate sanity_checks base request w :
  lower (method request) = "post" →
  "post" ∈ http_method_names base →
  sanity_checks request = None →
  Verify.dispatch settings is_safe_url authenticate sanity_checks base request w =
  Verify.post settings is_safe_url authenticate request
    (emit (EvSanityChecks request) w).
Proof.
  intros Hmethod Hin Hsane.
  unfold Verify.dispatch, bind, Verify.run_sanity_checks. rewrite Hsane.
  rewrite (dispatch_supported _ _ (Verify.post settings is_safe_url authenticate));
    rewrite ?Hmethod; [done .. |].
  unfold Verify.view, subclass; simpl. apply lookup_insert_eq.
Qed.

(** C9, as the code has it.  Every response of the Verify handler's POST
    is either a success payload, with exactly the keys email and redirect
    and status 200, or a failure payload, redirect only, with status 403;
    the two never mix, and the handler produces no response only when the
    backend raised an exit signal.  The other responses have shapes of
    their own: the method-not-allowed response carries the key error alone
    with status 405, the Logout response carries redirect alone with
    status 200, and the CSRF response is text, with no key at all.  No
    response contains email without redirect. *)
Theorem handler_response_shapes
    (settings : gmap string string)
    (is_safe_url : option string → string → bool)
    (authenticate : HttpRequest → string → Outcome (option User))
    (RequestContext : HttpRequest → gmap string ContextValue)
    (self : View) (request : HttpRequest) (w : World) :
  match Verify.post settings is_safe_url authenticate request w with
  | (Returns r, _) =>
      (success_payload r ∧ keys r = {[ "email"; "redirect" ]}
       ∧ ¬ failure_payload r)
      ∨ (failure_payload r ∧ status_code r = 403 ∧ ¬ success_payload r)
  | (Raises e, _) => isinstance_Exception e = false
  end
  ∧ (∃ r, JSONView.http_method_not_allowed self w = (Returns r, w)
          ∧ status_code r = 405 ∧ keys r = {[ "error" ]})
  ∧ (∃ r w', Logout.post settings is_safe_url request w = (Returns r, w')
             ∧ status_code r = 200 ∧ keys r = {[ "redirect" ]})
  ∧ (∃ r w', CsrfToken.get RequestContext request w = (Returns r, w')
             ∧ status_code r = 200 ∧ keys r = ∅
             ∧ ∃ text, content r = Text text).
Proof.
  assert (∀ u, let r := JSONResponse {[ "redirect" := u ]} 403 in
               failure_payload r ∧ status_code r = 403 ∧ ¬ success_payload r)
    as Hfail.
  { intros u r. destruct (failure_shape u) as [Hf Hs].
    split; [done|]. split; [done|].
    intros Hok. by apply (success_not_failure _ Hok). }
  assert (∀ e u, let r := JSONResponse {[ "email" := e; "redirect" := u ]} 200 in
                 success_payload r ∧ keys r = {[ "email"; "redirect" ]}
                 ∧ ¬ failure_payload r)
    as Hsucc.
  { intros e u r. destruct (success_shape e u) as [Hs Hk].
    split; [done|]. split; [done|]. by apply success_not_failure. }
  split; [|split; [|split]].
  - destruct (POST request !! "assertion") as [assertion|] eqn:Hpost.
    + destruct (decide (assertion = "")) as [-> | Hgiven].
      * rewrite post_empty by done. right. apply Hfail.
      * rewrite (post_authenticating _ _ _ _ _ w Hpost Hgiven).
        destruct (authenticate request assertion) as [[user|]|e].
        -- destruct (is_active user).
           ++ rewrite login_success_run. left. apply Hsucc.
           ++ rewrite login_failure_quiet. right. apply Hfail.
        -- rewrite login_failure_quiet. right. apply Hfail.
        -- destruct (isinstance_Exception e) eqn:Hexc; [|done].
           rewrite login_failure_run. right. apply Hfail.
    + rewrite post_missing by done. right. apply Hfail.
  - eexists. rewrite http_method_not_allowed_run. split; [done|].
    split; [done|]. unfold keys; simpl. set_solver.
  - do 2 eexists. rewrite logout_post_run. split; [done|].
    split; [done|]. rewrite keys_JSONResponse. set_solver.
  - rewrite csrf_get_run.
    destruct (RequestContext request !! "csrf_token") as [[s|s]|];
      do 2 eexists; (split; [reflexivity|]); (split; [reflexivity|]);
      (split; [reflexivity|]); eexists; reflexivity.
Qed.

(** C9 as it is worded does not hold of every handler.  A GET to the
    Verify handler is answered 405 with the key error alone, and a POST to
    the Logout handler 200 with the key redirect alone: neither response
    is a success payload, and neither is a failure payload. *)
Lemma handler_response_shapes_counterexample :
  (Verify.dispatch Scenario.settings Scenario.is_safe_url Scenario.authenticate
     Scenario.sanity_checks Scenario.View_class
     Scenario.get_request Scenario.anonymous =
   (Returns Scenario.not_allowed,
    {| session := None; events := [EvSanityChecks Scenario.get_request] |})
   ∧ ¬ (success_payload Scenario.not_allowed ∨ failure_payload Scenario.not_allowed))
  ∧
  (Logout.post Scenario.settings Scenario.is_safe_url
     (Scenario.post_request ∅) Scenario.logged_in =
   (Returns Scenario.logged_out,
    {| session := None;
       events := [EvLogout (Scenario.post_request ∅)] |})
   ∧ ¬ (success_payload Scenario.logged_out ∨ failure_payload Scenario.logged_out)).
Proof.
  split; split.
  - vm_compute. reflexivity.
  - intros [(_ & Hemail & _) | (_ & Hkeys)].
    + unfold keys in Hemail; simpl in Hemail. set_solver.
    + assert ("error" ∈ keys Scenario.not_allowed) as Hin
        by (unfold keys; simpl; set_solver).
      rewrite Hkeys in Hin. set_solver.
  - vm_compute. reflexivity.
  - intros [(_ & Hemail & _) | (Hstatus & _)].
    + unfold keys in Hemail; simpl in Hemail. set_solver.
    + by apply Hstatus.
Qed.

(** * Further properties of the handlers *)

(** ** Strings *)

Lemma append_String c (s t : string) : String c s ++ t = String c (s ++ t).
Proof. reflexivity. Qed.

Lemma append_empty_l (t : string) : "" ++ t = t.
Proof. reflexivity. Qed.

Lemma append_empty_r (s : string) : s ++ "" = s.
Proof.
  induction s as [|c s IH]; [done|]. by rewrite append_String, IH.
Qed.

Lemma append_assoc' (s t u : string) : (s ++ t) ++ u = s ++ (t ++ u).
Proof.
  induction s as [|c s IH]; [done|]. by rewrite !append_String, IH.
Qed.

Lemma ascii_lower_upper c : ascii_lower (ascii_upper c) = ascii_lower c.
Proof. by destruct c as [[] [] [] [] [] [] [] []]. Qed.

Lemma ascii_upper_lower c : ascii_upper (ascii_lower c) = ascii_upper c.
Proof. by destruct c as [[] [] [] [] [] [] [] []]. Qed.

Lemma ascii_upper_comma c : Ascii.eqb (ascii_upper c) "," = Ascii.eqb c ",".
Proof. by destruct c as [[] [] [] [] [] [] [] []]. Qed.

Lemma lower_upper s : lower (upper s) = lower s.
Proof.
  induction s as [|c s IH]; simpl; [done|].
  by rewrite ascii_lower_upper, IH.
Qed.

Lemma upper_lower s : upper (lower s) = upper s.
Proof.
  induction s as [|c s IH]; simpl; [done|].
  by rewrite ascii_upper_lower, IH.
Qed.

Lemma comma_free_upper s : comma_free (upper s) = comma_free s.
Proof.
  induction s as [|c s IH]; simpl; [done|].
  by rewrite ascii_upper_comma, IH.
Qed.

(** A lower-case ASCII name is its own lower case, and is ASCII. *)
Lemma ascii_small_lower c : ascii_small c = true → ascii_lower c = c.
Proof. by destruct c as [[] [] [] [] [] [] [] []]. Qed.

Lemma ascii_small_plain c : ascii_small c = true → ascii_plain c = true.
Proof. unfold ascii_small. by intros [? _]%andb_true_iff. Qed.

Lemma lower_case_lower s : lower_case s = true → lower s = s.
Proof.
  induction s as [|c s IH]; cbn [lower lower_case]; [done|].
  intros [Hc Hs]%andb_true_iff.
  by rewrite ascii_small_lower, IH.
Qed.

Lemma lower_case_is_ascii s : lower_case s = true → is_ascii s = true.
Proof.
  induction s as [|c s IH]; cbn [is_ascii lower_case]; [done|].
  intros [Hc Hs]%andb_true_iff.
  by rewrite ascii_small_plain, IH.
Qed.

Lemma Forall_lower_case_lower (l : list string) :
  Forall (λ m, lower_case m = true) l → Forall (λ m, lower m = m) l.
Proof.
  intros Hall. eapply Forall_impl; [exact Hall|].
  intros m. apply lower_case_lower.
Qed.

Lemma join_cons sep x y l :
  join sep (x :: y :: l) = x ++ sep ++ join sep (y :: l).
Proof. done. Qed.

(** A character that is no comma joins the piece being read. *)
Lemma split_from_char word c s :
  Ascii.eqb c "," = false →
  split_from word (String c s) = split_from (word ++ String c "") s.
Proof. intros Hc. destruct s as [|c' s]; simpl; [done | by rewrite Hc]. Qed.

(** The separator closes the piece being read. *)
Lemma split_from_separator word s :
  split_from word (", " ++ s) = word :: split_from "" s.
Proof. done. Qed.

Lemma split_from_comma_free word x s :
  comma_free x = true →
  split_from word (x ++ s) = split_from (word ++ x) s.
Proof.
  revert word. induction x as [|c x IH]; intros word Hx.
  - by rewrite append_empty_l, append_empty_r.
  - simpl in Hx. apply andb_true_iff in Hx as [Hc Hx].
    apply negb_true_iff in Hc.
    rewrite append_String, split_from_char by done. rewrite IH by done.
    by rewrite append_assoc', append_String, append_empty_l.
Qed.

Lemma split_from_join word x l :
  Forall (λ y, comma_free y = true) (x :: l) →
  split_from word (join ", " (x :: l)) = (word ++ x) :: l.
Proof.
  revert word x. induction l as [|y l IH]; intros word x Hall.
  - apply Forall_inv in Hall. simpl join.
    rewrite <- (append_empty_r x) at 1.
    by rewrite split_from_comma_free.
  - rewrite join_cons. inversion Hall as [|? ? Hx Hrest]; subst.
    rewrite split_from_comma_free by done.
    rewrite split_from_separator. by rewrite IH.
Qed.

(** Splitting undoes joining, but for the empty list: the empty header
    splits into one empty name. *)
Lemma split_join l :
  Forall (λ y, comma_free y = true) l →
  split_comma_space (join ", " l) = match l with [] => [""] | _ => l end.
Proof.
  intros Hall. destruct l as [|x l]; [done|].
  unfold split_comma_space. by rewrite split_from_join.
Qed.

Example split_cases :
  split_comma_space "GET, POST" = ["GET"; "POST"]
  ∧ split_comma_space "" = [""]
  ∧ split_comma_space "a,, b" = ["a,"; "b"]
  ∧ split_comma_space ", " = [""; ""]
  ∧ split_comma_space "a," = ["a,"].
Proof. repeat split; reflexivity. Qed.

(** ** The [Allow] header *)

Lemma allowed_methods_comma_free self :
  Forall (λ m, comma_free m = true) (http_method_names self) →
  Forall (λ name, comma_free name = true) (JSONView.allowed_methods self).
Proof.
  intros Hnames. apply Forall_forall. intros name Hin.
  apply elem_of_allowed_methods in Hin as (m & Hm & _ & ->).
  rewrite comma_free_upper. by apply (proj1 (Forall_forall _ _) Hnames).
Qed.

(** X1. The [Allow] header of the method-not-allowed response reads back:
    when no method name of the framework holds a comma, splitting the
    header at [", "], as the repository's tests do, gives the allowed
    methods, each once for each time it was listed and in the same order.
    A view without any handler method sends the empty header, which
    splits into one empty name. *)
Theorem allow_header_reads_back (self : View) (w : World) :
  Forall (λ m, comma_free m = true) (http_method_names self) →
  ∃ response allow,
    JSONView.http_method_not_allowed self w = (Returns response, w)
    ∧ headers response !! "Allow" = Some allow
    ∧ split_comma_space allow =
        match JSONView.allowed_methods self with
        | [] => [""]
        | _ :: _ => JSONView.allowed_methods self
        end.
Proof.
  intros Hnames. eexists _, _. rewrite http_method_not_allowed_run.
  split; [done|]. split; [apply lookup_singleton_eq|].
  apply split_join. by apply allowed_methods_comma_free.
Qed.

Lemma allow_header_reads_back_witness :
  ∃ response allow,
    JSONView.http_method_not_allowed
      (subclass (subclass Scenario.View_class "get" (λ _, ret Scenario.logged_out))
                "post" (λ _, ret Scenario.logged_out))
      Scenario.anonymous = (Returns response, Scenario.anonymous)
    ∧ headers response !! "Allow" = Some allow
    ∧ split_comma_space allow = ["GET"; "POST"].
Proof.
  refine (allow_header_reads_back
            (subclass (subclass Scenario.View_class "get" (λ _, ret Scenario.logged_out))
                      "post" (λ _, ret Scenario.logged_out))
            Scenario.anonymous _).
  repeat constructor.
Defined.

(** Every name that is joined can be read in the result. *)
Lemma join_contains sep x l : x ∈ l → contains (join sep l) x.
Proof.
  induction l as [|y l IH]; intros Hin; [by apply not_elem_of_nil in Hin|].
  destruct l as [|z l].
  - apply list_elem_of_singleton in Hin as ->.
    exists "", "". by rewrite append_empty_l, append_empty_r.
  - rewrite join_cons. apply elem_of_cons in Hin as [-> | Hin].
    + exists "", (sep ++ join sep (z :: l)). by rewrite append_empty_l.
    + destruct (IH Hin) as (before & after & ->).
      exists (y ++ sep ++ before), after. by rewrite !append_assoc'.
Qed.

(** C6. The method-not-allowed response has status 405, the JSON body
    [{error: "Method not allowed."}] and an [Allow] header that lists the
    allowed methods: the header is their names joined by a comma and a
    space, so that every allowed method can be read in it and, when no
    method name holds a comma, splitting it at the separator gives the
    allowed methods back, no more and no fewer.  A name is an allowed
    method exactly when it is the uppercase form of a method name the
    framework knows and the handler has.  Dispatch answers with this
    response when the request's method is unknown to the framework or
    missing from the handler; in particular a GET to a handler that has
    [post] and no [get] is answered 405 with POST in the [Allow] header.
    Method names are ASCII. *)
Theorem method_not_allowed_envelope
    (self : View) (request : HttpRequest) (w : World) :
  Forall (λ m, is_ascii m = true) (http_method_names self) →
  let allowed := JSONView.allowed_methods self in
  let envelope :=
    {| content := JSON {[ "error" := "Method not allowed." ]};
       status_code := 405;
       headers := {[ "Allow" := join ", " allowed ]} |} in
  JSONView.http_method_not_allowed self w = (Returns envelope, w)
  ∧ (∀ name,
       name ∈ allowed ↔
       ∃ m, m ∈ http_method_names self ∧ is_Some (methods self !! m) ∧
            name = upper m)
  ∧ (∀ name, name ∈ allowed → contains (join ", " allowed) name)
  ∧ (Forall (λ m, comma_free m = true) (http_method_names self) →
     split_comma_space (join ", " allowed) =
       match allowed with
       | [] => [""]
       | _ :: _ => allowed
       end)
  ∧ (is_ascii (method request) = true →
     lower (method request) ∉ http_method_names self ∨
     methods self !! lower (method request) = None →
     JSONView.dispatch self request w = (Returns envelope, w))
  ∧ (method request = "GET" →
     methods self !! "get" = None →
     "post" ∈ http_method_names self →
     is_Some (methods self !! "post") →
     JSONView.dispatch self request w = (Returns envelope, w)
     ∧ "POST" ∈ allowed
     ∧ contains (join ", " allowed) "POST").
Proof.
  intros Hascii allowed envelope.
  assert (∀ name, name ∈ allowed → contains (join ", " allowed) name)
    as Hlisted by (intros name; apply join_contains).
  split; [apply http_method_not_allowed_run|].
  split; [intros name; apply elem_of_allowed_methods|].
  split; [done|].
  split.
  { intros Hcomma. apply split_join. by apply allowed_methods_comma_free. }
  split.
  - intros _ Hun. rewrite dispatch_unsupported by done.
    apply http_method_not_allowed_run.
  - intros Hget Hnone Hin Hpost.
    assert ("POST" ∈ allowed) as Hallowed.
    { apply elem_of_allowed_methods. by exists "post". }
    split; [|split; [done | by apply Hlisted]].
    rewrite dispatch_unsupported.
    + apply http_method_not_allowed_run.
    + right. by rewrite Hget.
Qed.

Lemma method_not_allowed_envelope_witness :
  JSONView.dispatch Scenario.verify_view Scenario.get_request Scenario.anonymous =
    (Returns Scenario.not_allowed, Scenario.anonymous)
  ∧ "POST" ∈ JSONView.allowed_methods Scenario.verify_view
  ∧ contains (join ", " (JSONView.allowed_methods Scenario.verify_view)) "POST".
Proof.
  refine (proj2 (proj2 (proj2 (proj2 (proj2
            (method_not_allowed_envelope
               Scenario.verify_view Scenario.get_request Scenario.anonymous _)))))
            _ _ _ _).
  - repeat constructor.
  - reflexivity.
  - reflexivity.
  - vm_compute. repeat constructor.
  - exists (Verify.post Scenario.settings Scenario.is_safe_url Scenario.authenticate).
    reflexivity.
Defined.

(** X2. The [Allow] header tells what dispatch does.  When the method
    names of the framework are ASCII and in lower case, and the method of
    the request is ASCII, the method of the request, in upper case, is among
    the allowed methods exactly when dispatch hands the request to a
    handler method of the view; otherwise dispatch answers with the
    method-not-allowed response.  The letter case of the request's method
    plays no part. *)
Theorem allow_header_agrees_with_dispatch (self : View) (request : HttpRequest) :
  Forall (λ m, lower_case m = true) (http_method_names self) →
  is_ascii (method request) = true →
  (upper (method request) ∈ JSONView.allowed_methods self →
   ∃ handler, methods self !! lower (method request) = Some handler
              ∧ JSONView.dispatch self request = handler request)
  ∧ (upper (method request) ∉ JSONView.allowed_methods self →
     JSONView.dispatch self request = JSONView.http_method_not_allowed self).
Proof.
  intros Hlower%Forall_lower_case_lower _.
  assert (upper (method request) ∈ JSONView.allowed_methods self ↔
          lower (method request) ∈ http_method_names self ∧
          is_Some (methods self !! lower (method request))) as Hiff.
  { rewrite elem_of_allowed_methods. split.
    - intros (m & Hin & Hm & Hup).
      assert (lower (method request) = m) as ->; [|done].
      rewrite <- (lower_upper (method request)), Hup, lower_upper.
      by apply (proj1 (Forall_forall _ _) Hlower).
    - intros [Hin Hm]. exists (lower (method request)).
      by rewrite upper_lower. }
  split.
  - intros [Hin [handler Hm]]%Hiff. exists handler. split; [done|].
    by apply dispatch_supported.
  - intros Hnot. apply dispatch_unsupported.
    destruct (decide (lower (method request) ∈ http_method_names self)) as [Hin|];
      [|by left].
    right. destruct (methods self !! lower (method request)) as [handler|] eqn:Hm;
      [|done].
    destruct Hnot. apply Hiff. split; [done|]. by exists handler.
Qed.

Lemma allow_header_agrees_with_dispatch_witness :
  (upper "post" ∈ JSONView.allowed_methods
                    (subclass Scenario.View_class "post" (λ _, ret Scenario.logged_out)) →
   ∃ handler,
     methods (subclass Scenario.View_class "post" (λ _, ret Scenario.logged_out))
       !! lower "post" = Some handler
     ∧ JSONView.dispatch
         (subclass Scenario.View_class "post" (λ _, ret Scenario.logged_out))
         {| method := "post"; POST := ∅; get_host := "testserver" |} =
       handler {| method := "post"; POST := ∅; get_host := "testserver" |})
  ∧ (upper "post" ∉ JSONView.allowed_methods
                      (subclass Scenario.View_class "post" (λ _, ret Scenario.logged_out)) →
     JSONView.dispatch
       (subclass Scenario.View_class "post" (λ _, ret Scenario.logged_out))
       {| method := "post"; POST := ∅; get_host := "testserver" |} =
     JSONView.http_method_not_allowed
       (subclass Scenario.View_class "post" (λ _, ret Scenario.logged_out))).
Proof.
  refine (allow_header_agrees_with_dispatch
            (subclass Scenario.View_class "post" (λ _, ret Scenario.logged_out))
            {| method := "post"; POST := ∅; get_host := "testserver" |} _ _).
  - repeat constructor.
  - reflexivity.
Defined.

(** ** What the Verify handler does to the world *)

(** X3. Whatever the request, the Verify handler's POST only adds to the
    trace of outside calls, and adds one of four things: nothing; one call
    to the backend, with the request's non-empty assertion; that call and
    one log entry, for the error the backend raised; or that call and the
    login of the active principal the backend returned.  The session
    changes in the last case only.  So the backend is asked at most once,
    an error is logged only if the backend raised it, and nobody is logged
    in who the backend did not return as active for this very request. *)
Theorem verify_post_effects
    (settings : gmap string string)
    (is_safe_url : option string → string → bool)
    (authenticate : HttpRequest → string → Outcome (option User))
    (request : HttpRequest) (w : World) :
  let w' := snd (Verify.post settings is_safe_url authenticate request w) in
  w' = w
  ∨ ∃ assertion,
      POST request !! "assertion" = Some assertion ∧ assertion ≠ "" ∧
      (w' = {| session := session w;
               events := events w ++ [EvAuthenticate request assertion] |}
       ∨ (∃ e, authenticate request assertion = Raises e
               ∧ isinstance_Exception e = true
               ∧ w' = {| session := session w;
                         events := events w ++ [EvAuthenticate request assertion;
                                                EvLoggerError e] |})
       ∨ (∃ user, authenticate request assertion = Returns (Some user)
                  ∧ is_active user = true
                  ∧ w' = {| session := Some user;
                            events := events w ++ [EvAuthenticate request assertion;
                                                   EvLogin request user] |})).
Proof.
  intros w'. subst w'.
  destruct (POST request !! "assertion") as [assertion|] eqn:Hpost;
    [|left; by rewrite post_missing].
  destruct (decide (assertion = "")) as [-> | Hgiven];
    [left; by rewrite post_empty|].
  right. exists assertion. split; [done|]. split; [done|].
  destruct (authenticate request assertion) as [[user|]|e] eqn:Hauth.
  - destruct (is_active user) eqn:Hactive.
    + right; right. exists user.
      by rewrite (post_active _ _ _ _ _ w Hpost Hgiven user Hauth Hactive).
    + left. rewrite (post_rejected _ _ _ _ _ w Hpost Hgiven (Some user)); [done..|].
      right. by exists user.
  - left. rewrite (post_rejected _ _ _ _ _ w Hpost Hgiven None); [done..|].
    by left.
  - destruct (isinstance_Exception e) eqn:Hexc.
    + rewrite (post_raised _ _ _ _ _ w Hpost Hgiven e Hauth Hexc).
      destruct (truthy e); [right; left; by exists e | by left].
    + left. by rewrite (post_exit _ _ _ _ _ w Hpost Hgiven e Hauth Hexc).
Qed.

(** X4. The Verify handler answers 200 only to a verified login: if its
    POST returns a response with status 200, then the request carried a
    non-empty assertion, the backend returned an active principal for it,
    the session now belongs to that principal, and the body names the
    principal's email. *)
Theorem verify_post_ok_only_if_verified
    (settings : gmap string string)
    (is_safe_url : option string → string → bool)
    (authenticate : HttpRequest → string → Outcome (option User))
    (request : HttpRequest) (w w' : World) (response : HttpResponse) :
  Verify.post settings is_safe_url authenticate request w = (Returns response, w') →
  status_code response = 200 →
  ∃ assertion user d,
    POST request !! "assertion" = Some assertion
    ∧ assertion ≠ ""
    ∧ authenticate request assertion = Returns (Some user)
    ∧ is_active user = true
    ∧ session w' = Some user
    ∧ content response = JSON d
    ∧ d !! "email" = Some (email user).
Proof.
  intros Hrun Hstatus.
  destruct (POST request !! "assertion") as [assertion|] eqn:Hpost.
  2: { rewrite post_missing in Hrun by done.
       injection Hrun as <- <-. done. }
  destruct (decide (assertion = "")) as [-> | Hgiven].
  { rewrite post_empty in Hrun by done. injection Hrun as <- <-. done. }
  destruct (authenticate request assertion) as [[user|]|e] eqn:Hauth.
  - destruct (is_active user) eqn:Hactive.
    + rewrite (post_active _ _ _ _ _ w Hpost Hgiven user Hauth Hactive) in Hrun.
      injection Hrun as <- <-.
      exists assertion, user. eexists.
      split_and!; [done | done | done | done | done | reflexivity |].
      apply lookup_insert_eq.
    + rewrite (post_rejected _ _ _ _ _ w Hpost Hgiven (Some user)) in Hrun;
        [|done|right; by exists user].
      injection Hrun as <- <-. done.
  - rewrite (post_rejected _ _ _ _ _ w Hpost Hgiven None) in Hrun;
      [|done|by left].
    injection Hrun as <- <-. done.
  - destruct (isinstance_Exception e) eqn:Hexc.
    + rewrite (post_raised _ _ _ _ _ w Hpost Hgiven e Hauth Hexc) in Hrun.
      injection Hrun as <- <-. done.
    + by rewrite (post_exit _ _ _ _ _ w Hpost Hgiven e Hauth Hexc) in Hrun.
Qed.

Lemma verify_post_ok_only_if_verified_witness :
  ∃ assertion user d,
    POST (Scenario.post_request {[ "assertion" := "valid-token" ]}) !! "assertion" =
      Some assertion
    ∧ assertion ≠ ""
    ∧ Scenario.authenticate
        (Scenario.post_request {[ "assertion" := "valid-token" ]}) assertion =
      Returns (Some user)
    ∧ is_active user = true
    ∧ session
        {| session := Some Scenario.alice;
           events := [EvAuthenticate
                        (Scenario.post_request {[ "assertion" := "valid-token" ]})
                        "valid-token";
                      EvLogin
                        (Scenario.post_request {[ "assertion" := "valid-token" ]})
                        Scenario.alice] |} = Some user
    ∧ content
        {| content := JSON {[ "email" := "a@b.com"; "redirect" := "/success" ]};
           status_code := 200;
           headers := ∅ |} = JSON d
    ∧ d !! "email" = Some (email user).
Proof.
  refine (verify_post_ok_only_if_verified
            Scenario.settings Scenario.is_safe_url Scenario.authenticate
            (Scenario.post_request {[ "assertion" := "valid-token" ]})
            Scenario.anonymous _ _ _ _).
  - vm_compute. reflexivity.
  - reflexivity.
Defined.

(** ** Dispatch of the Verify handler *)




(** ** The redirect the client is sent to *)

Lemma py_or_origin is_safe_url request d :
  py_or (_get_next is_safe_url request) d = d
  ∨ (POST request !! "next" = Some (py_or (_get_next is_safe_url request) d)
     ∧ is_safe_url (Some (py_or (_get_next is_safe_url request) d))
                   (get_host request) = true).
Proof.
  destruct (_get_next is_safe_url request) as [next|] eqn:Hnext; [|by left].
  rewrite py_or_cases. destruct (decide (next = "")); [by left|].
  right. by apply get_next_Some.
Qed.

Lemma py_or_not_empty x d : d ≠ "" → py_or x d ≠ "".
Proof.
  intros Hd. rewrite py_or_cases.
  destruct x as [s|]; [|done]. by destruct (decide (s = "")).
Qed.

Lemma default_not_empty (o : option string) :
  o ≠ Some "" → default "/" o ≠ "".
Proof. destruct o as [s|]; simpl; [congruence | done]. Qed.

(** The three ways the Verify handler's POST can end. *)
Lemma post_outcome settings is_safe_url authenticate request w :
  (∃ w', Verify.post settings is_safe_url authenticate request w =
         (Returns (JSONResponse
                     {[ "redirect" := Verify.failure_url settings ]} 403), w'))
  ∨ (∃ user w',
       Verify.post settings is_safe_url authenticate request w =
       (Returns (JSONResponse
                   {[ "email" := email user;
                      "redirect" := py_or (_get_next is_safe_url request)
                                          (Verify.success_url settings) ]} 200),
        w'))
  ∨ (∃ e w', Verify.post settings is_safe_url authenticate request w =
             (Raises e, w')).
Proof.
  destruct (POST request !! "assertion") as [assertion|] eqn:Hpost;
    [|left; eexists; by apply post_missing].
  destruct (decide (assertion = "")) as [-> | Hgiven];
    [left; eexists; by apply post_empty|].
  rewrite (post_authenticating _ _ _ _ _ w Hpost Hgiven).
  destruct (authenticate request assertion) as [[user|]|e].
  - destruct (is_active user).
    + right; left. rewrite login_success_run. by eexists _, _.
    + left. rewrite login_failure_quiet. by eexists.
  - left. rewrite login_failure_quiet. by eexists.
  - destruct (isinstance_Exception e).
    + left. rewrite login_failure_run. by eexists.
    + right; right. by eexists _, _.
Qed.

(** X6. Where the client is sent.  A response of the Verify handler's POST
    carries either status 403 and the configured failure URL, so that a
    failed login never follows the request's [next], or status 200 and
    then the configured success URL or the request's own [next], which the
    validator has approved for the request's host.  A response of the
    Logout handler's POST carries the configured logout URL or such an
    approved [next].  No other URL is ever sent. *)
Theorem redirect_is_configured_or_approved
    (settings : gmap string string)
    (is_safe_url : option string → string → bool)
    (authenticate : HttpRequest → string → Outcome (option User))
    (request : HttpRequest) (w : World) :
  let approved target :=
    POST request !! "next" = Some target
    ∧ is_safe_url (Some target) (get_host request) = true in
  (∀ response w',
     Verify.post settings is_safe_url authenticate request w =
       (Returns response, w') →
     ∃ d target,
       content response = JSON d ∧ d !! "redirect" = Some target
       ∧ ((status_code response = 403
           ∧ target = default "/" (settings !! "LOGIN_REDIRECT_URL_FAILURE"))
          ∨ (status_code response = 200
             ∧ (target = default "/" (settings !! "LOGIN_REDIRECT_URL")
                ∨ approved target))))
  ∧ (∃ response w' d target,
       Logout.post settings is_safe_url request w = (Returns response, w')
       ∧ content response = JSON d ∧ d !! "redirect" = Some target
       ∧ (target = default "/" (settings !! "LOGOUT_REDIRECT_URL")
          ∨ approved target)).
Proof.
  intros approved. subst approved. split.
  - intros response w' Hrun.
    destruct (post_outcome settings is_safe_url authenticate request w)
      as [[w1 Hfail] | [(user & w1 & Hok) | (e & w1 & Hexit)]];
      rewrite Hrun in *; simplify_eq.
    + eexists _, _. split; [reflexivity|]. split; [apply lookup_singleton_eq|].
      left. split; [done|]. apply getattr_default.
    + eexists _, _. split; [reflexivity|]. split.
      { rewrite lookup_insert_ne by done. apply lookup_singleton_eq. }
      right. split; [done|].
      unfold Verify.success_url. rewrite <- getattr_default.
      apply py_or_origin.
  - eexists _, _, _, _. rewrite logout_post_run.
    split; [reflexivity|]. split; [reflexivity|].
    split; [apply lookup_singleton_eq|].
    unfold Logout.redirect_url. rewrite <- getattr_default.
    apply py_or_origin.
Qed.

(** X7. The client is always told where to go.  When none of the three
    redirect settings is the empty string (a setting may be missing: the
    default is ["/"]), every response of the Verify handler's POST and of
    the Logout handler's POST has a [redirect] key with a non-empty value;
    an empty [next], even one the validator approves, gives way to the
    configured URL. *)
Theorem redirect_never_empty
    (settings : gmap string string)
    (is_safe_url : option string → string → bool)
    (authenticate : HttpRequest → string → Outcome (option User))
    (request : HttpRequest) (w : World) :
  settings !! "LOGIN_REDIRECT_URL" ≠ Some "" →
  settings !! "LOGIN_REDIRECT_URL_FAILURE" ≠ Some "" →
  settings !! "LOGOUT_REDIRECT_URL" ≠ Some "" →
  (∀ response w',
     Verify.post settings is_safe_url authenticate request w =
       (Returns response, w') →
     ∃ d target,
       content response = JSON d ∧ d !! "redirect" = Some target ∧ target ≠ "")
  ∧ (∃ response w' d target,
       Logout.post settings is_safe_url request w = (Returns response, w')
       ∧ content response = JSON d ∧ d !! "redirect" = Some target ∧ target ≠ "").
Proof.
  intros Hsuccess Hfailure Hlogout. split.
  - intros response w' Hrun.
    destruct (post_outcome settings is_safe_url authenticate request w)
      as [[w1 Hfail] | [(user & w1 & Hok) | (e & w1 & Hexit)]];
      rewrite Hrun in *; simplify_eq.
    + eexists _, _. split; [reflexivity|]. split; [apply lookup_singleton_eq|].
      unfold Verify.failure_url. rewrite getattr_default.
      by apply default_not_empty.
    + eexists _, _. split; [reflexivity|]. split.
      { rewrite lookup_insert_ne by done. apply lookup_singleton_eq. }
      apply py_or_not_empty. unfold Verify.success_url.
      rewrite getattr_default. by apply default_not_empty.
  - eexists _, _, _, _. rewrite logout_post_run.
    split; [reflexivity|]. split; [reflexivity|].
    split; [apply lookup_singleton_eq|].
    apply py_or_not_empty. unfold Logout.redirect_url.
    rewrite getattr_default. by apply default_not_empty.
Qed.

Lemma redirect_never_empty_witness :
  (∀ response w',
     Verify.post Scenario.settings (λ _ _, true) Scenario.authenticate
       (Scenario.post_request {[ "assertion" := "valid-token"; "next" := "" ]})
       Scenario.anonymous = (Returns response, w') →
     ∃ d target,
       content response = JSON d ∧ d !! "redirect" = Some target ∧ target ≠ "")
  ∧ (∃ response w' d target,
       Logout.post Scenario.settings (λ _ _, true)
         (Scenario.post_request {[ "assertion" := "valid-token"; "next" := "" ]})
         Scenario.anonymous = (Returns response, w')
       ∧ content response = JSON d ∧ d !! "redirect" = Some target ∧ target ≠ "").
Proof.
  refine (redirect_never_empty
            Scenario.settings (λ _ _, true) Scenario.authenticate
            (Scenario.post_request {[ "assertion" := "valid-token"; "next" := "" ]})
            Scenario.anonymous _ _ _).
  - vm_compute. discriminate.
  - vm_compute. discriminate.
  - vm_compute. discriminate.
Defined.

(** ** The order and the number of the allowed methods *)

Lemma fmap_sublist {A B} (f : A → B) (l1 l2 : list A) :
  l1 `sublist_of` l2 → (f <$> l1) `sublist_of` (f <$> l2).
Proof.
  induction 1 as [|x l1 l2 _ IH|x l1 l2 _ IH]; simpl.
  - constructor.
  - by apply sublist_skip.
  - by apply sublist_cons.
Qed.

(** On lower-case names, turning to upper case loses nothing. *)
Lemma upper_inj_lower a b : lower a = a → lower b = b → upper a = upper b → a = b.
Proof.
  intros Ha Hb Hup. rewrite <- Ha, <- Hb.
  rewrite <- (lower_upper a), <- (lower_upper b). by rewrite Hup.
Qed.

(** X8. The allowed methods follow the framework's list of method names.
    When those names are ASCII, in lower case and without repeats, the
    allowed methods are the upper-case names of a part of that list, in its
    order, so there are no more of them than the framework knows, and no
    method is listed twice. *)
Theorem allowed_methods_in_order_without_repeats (self : View) :
  Forall (λ m, lower_case m = true) (http_method_names self) →
  NoDup (http_method_names self) →
  JSONView.allowed_methods self `sublist_of` (upper <$> http_method_names self)
  ∧ (List.length (JSONView.allowed_methods self)
     ≤ List.length (http_method_names self))%nat
  ∧ NoDup (JSONView.allowed_methods self).
Proof.
  intros Hlower%Forall_lower_case_lower Hnodup.
  assert (JSONView.allowed_methods self
            `sublist_of` (upper <$> http_method_names self)) as Hsub.
  { unfold JSONView.allowed_methods. apply fmap_sublist, sublist_filter. }
  split; [done|]. split.
  - apply sublist_length in Hsub. by rewrite length_fmap in Hsub.
  - apply (sublist_NoDup _ (upper <$> http_method_names self)); [|done].
    apply NoDup_fmap_2_strong; [|done].
    intros a b Ha Hb. apply upper_inj_lower.
    + by apply (proj1 (Forall_forall _ _) Hlower).
    + by apply (proj1 (Forall_forall _ _) Hlower).
Qed.

Lemma allowed_methods_in_order_without_repeats_witness :
  JSONView.allowed_methods
    (subclass (subclass Scenario.View_class "post" (λ _, ret Scenario.logged_out))
              "get" (λ _, ret Scenario.logged_out))
    `sublist_of` (upper <$> http_method_names Scenario.View_class)
  ∧ (List.length (JSONView.allowed_methods
                    (subclass (subclass Scenario.View_class "post"
                                        (λ _, ret Scenario.logged_out))
                              "get" (λ _, ret Scenario.logged_out)))
     ≤ List.length (http_method_names Scenario.View_class))%nat
  ∧ NoDup (JSONView.allowed_methods
             (subclass (subclass Scenario.View_class "post"
                                 (λ _, ret Scenario.logged_out))
                       "get" (λ _, ret Scenario.logged_out))).
Proof.
  refine (allowed_methods_in_order_without_repeats
            (subclass (subclass Scenario.View_class "post"
                                (λ _, ret Scenario.logged_out))
                      "get" (λ _, ret Scenario.logged_out)) _ _).
  - repeat constructor.
  - simpl. apply (bool_decide_unpack (NoDup _)). vm_compute. exact I.
Defined.
